(** * Artifact resolver / launcher of the Rust-binary GitHub actions

    Shallow embedding of [.github/bootstrap/bootstrap.ts]
    ([invokeWith] / [executeRustBinaryAction]) and of its older sibling
    ([run] / [execute_rust_binary_action]) together with the
    argument-building callbacks of the individual actions.

    The libraries the launcher calls ([@actions/core], [@actions/exec],
    [@actions/tool-cache], [node:url], [node:path], [toml]) are modelled
    by the [world] record and by a small state/exception monad whose
    state is the tool cache and the trace of externally visible effects. *)

From stdpp Require Import base gmap strings list.
From Stdlib Require Import Ascii.

(* ------------------------------------------------------------------ *)
(** ** Values thrown by JavaScript code *)

(** A rejected promise carries either an [Error] instance (with its
    [message]) or some other value (e.g. a thrown string). *)
Inductive exc :=
| ExcError (message : string)
| ExcValue (value : string).

Inductive res (A : Type) :=
| Ok (a : A)
| Throw (e : exc).
Arguments Ok {A} a.
Arguments Throw {A} e.

(** Pure computations that may throw (used for the input accessors). *)
Definition res_bind {A B} (r : res A) (k : A -> res B) : res B :=
  match r with Ok a => k a | Throw e => Throw e end.

(* ------------------------------------------------------------------ *)
(** ** Externally visible effects *)

Inductive event :=
| EvReadManifest                                       (* readFileSync(Cargo.toml) *)
| EvFind (tool version : string)                       (* tool-cache find *)
| EvDownload (url : string)                            (* downloadTool *)
| EvExtract (file dest : string)                       (* extractTar *)
| EvCacheFile (src target tool version : string)       (* cacheFile *)
| EvExec (path : string) (args : list string)          (* exec *)
| EvSetFailed (message : string).                      (* core.setFailed *)

(* ------------------------------------------------------------------ *)
(** ** The manifest (Cargo.toml) *)

Record manifest := {
  pkg_name : string;          (* toml.package.name *)
  pkg_version : string;       (* toml.package.version *)
  pkg_repository : string;    (* toml.package.repository *)
  bin_names : list string     (* toml.bin[i].name *)
}.

(** The environment the action runs in.  The library calls that can fail
    return [inr message]: every one of them rejects with an [Error]. *)
Record world := {
  w_platform : string;                                  (* process.platform *)
  w_runner_temp : string;                               (* env.RUNNER_TEMP *)
  w_manifest : manifest + string;                       (* tomlParse(readFileSync(..)) *)
  w_input : string -> string;                           (* INPUT_* variables, '' if unset *)
  w_download : string -> string + string;               (* downloadTool(url) *)
  w_extract : string -> string -> string + string;      (* extractTar(file, dest) *)
  w_cache_file : string -> string -> string -> string -> string + string;
                                                        (* cacheFile(src, target, tool, version) *)
  w_exec : string -> list string -> unit + string       (* exec(path, args) *)
}.

(** Mutable state: the tool cache directory (keyed by tool and version)
    and the trace of effects performed so far. *)
Record st := {
  st_cache : gmap (string * string) string;
  st_trace : list event
}.

(* ------------------------------------------------------------------ *)
(** ** State / exception monad *)

Definition M (A : Type) : Type := st -> res A * st.

Global Instance M_ret : MRet M := fun A a s => (Ok a, s).
Global Instance M_bind : MBind M := fun A B k m s =>
  match m s with
  | (Ok a, s') => k a s'
  | (Throw e, s') => (Throw e, s')
  end.

Definition throw {A} (e : exc) : M A := fun s => (Throw e, s).

Definition emit (ev : event) : M unit :=
  fun s => (Ok tt, {| st_cache := st_cache s; st_trace := st_trace s ++ [ev] |}).

(** A library call that rejects with an [Error] on failure. *)
Definition lift_ext {A} (r : A + string) : M A :=
  match r with inl a => mret a | inr msg => throw (ExcError msg) end.

Definition lift_res {A} (r : res A) : M A :=
  match r with Ok a => mret a | Throw e => throw e end.

Definition cache_lookup (key : string * string) : M (option string) :=
  fun s => (Ok (st_cache s !! key), s).

Definition cache_insert (key : string * string) (dir : string) : M unit :=
  fun s => (Ok (), {| st_cache := <[key := dir]> (st_cache s); st_trace := st_trace s |}).

(* ------------------------------------------------------------------ *)
(** ** Pure helpers used by the launcher *)

Definition is_supported (platform : string) : bool :=
  bool_decide (platform = "win32") || bool_decide (platform = "darwin")
  || bool_decide (platform = "linux").

(** [platform === 'win32' ? `${name}.exe` : name] *)
Definition binary_name (platform name : string) : string :=
  if bool_decide (platform = "win32") then name +:+ ".exe" else name.

(** [path.join] for two plain path components (no normalisation). *)
Definition path_join (a b : string) : string := a +:+ "/" +:+ b.

(** The release URL template (line 45 of bootstrap.ts, line 49 of the
    older variant). *)
Definition release_url (githubOrgAndName version name platform : string) : string :=
  "https://github.com/" +:+ githubOrgAndName +:+ "/releases/download/v" +:+ version
  +:+ "/" +:+ name +:+ "-v" +:+ version +:+ "-" +:+ platform +:+ "-x64.tar.gz".

Definition is_query_start (c : ascii) : bool :=
  bool_decide (c = "?"%char) || bool_decide (c = "#"%char).

(** Part of a path before its query or fragment. *)
Fixpoint path_until_query (s : string) : string :=
  match s with
  | EmptyString => EmptyString
  | String c r => if is_query_start c then EmptyString else String c (path_until_query r)
  end.

(** After [scheme://]: skip the host, keep the path ('/' when empty). *)
Fixpoint from_first_slash (s : string) : string :=
  match s with
  | EmptyString => "/"
  | String c r =>
      if bool_decide (c = "/"%char) then path_until_query s
      else if is_query_start c then "/"
      else from_first_slash r
  end.

(** Text following the first [://], if the string has one there. *)
Fixpoint scheme_rest (s : string) : option string :=
  match s with
  | EmptyString => None
  | String c r =>
      if bool_decide (c = ":"%char) then
        match r with
        | String c1 (String c2 r') =>
            if bool_decide (c1 = "/"%char) && bool_decide (c2 = "/"%char)
            then Some r' else None
        | _ => None
        end
      else scheme_rest r
  end.

(** [url.parse(u).pathname] of Node's legacy URL parser, for URLs without
    characters the parser escapes or trims, with a non-empty path or a
    host that is a plain DNS name ([dns_name] below). Outside that domain
    the parser escapes characters, splits hosts or returns a [null]
    pathname, which this function does not model; the theorems state
    their domain as hypotheses. *)
Definition url_pathname (u : string) : string :=
  match scheme_rest u with
  | Some r => from_first_slash r
  | None => path_until_query u
  end.

(** [.replace(/^\//, '')] *)
Definition strip_leading_slash (s : string) : string :=
  match s with
  | String c r => if bool_decide (c = "/"%char) then r else s
  | EmptyString => EmptyString
  end.

(** [.replace(/\.git$/, '')]: the only position where the pattern can
    match is the last four characters. *)
Fixpoint strip_git_suffix (s : string) : string :=
  if bool_decide (s = ".git") then EmptyString
  else match s with
       | EmptyString => EmptyString
       | String c r => String c (strip_git_suffix r)
       end.

(** [githubOrgAndName] *)
Definition github_org_and_name (repository : string) : string :=
  strip_git_suffix (strip_leading_slash (url_pathname repository)).


(* ------------------------------------------------------------------ *)
(** ** Library calls *)

(** [getInput(name, { required })] of [@actions/core]: the value of the
    [INPUT_<NAME>] variable ('' when unset); a required input that is
    empty rejects with [Input required and not supplied: <name>].
    (The value is trimmed by the library; the callbacks pass it on
    unchanged, so trimming is left out.) *)
Definition input_required_message (name : string) : string :=
  "Input required and not supplied: " +:+ name.

Definition getInput (inputs : string -> string) (name : string) (required : bool)
    : res string :=
  let val := inputs name in
  if required && bool_decide (val = "") then Throw (ExcError (input_required_message name))
  else Ok val.

(** [GetArguments]: a callback that reads inputs through the accessors and
    returns the argument list (or throws). *)
Definition GetArguments : Type := (string -> string) -> res (list string).

Definition read_manifest (w : world) : M manifest :=
  emit EvReadManifest ;; lift_ext (w_manifest w).

(** [const { name } = toml.bin[0]]: destructuring [undefined] is a
    [TypeError]. *)
Definition first_bin_name (toml : manifest) : M string :=
  match bin_names toml with
  | name :: _ => mret name
  | [] => throw (ExcError "Cannot destructure property 'name' of 'toml.bin[0]' as it is undefined.")
  end.

(** [find(tool, version)]: the cached directory, or '' (here [None]).
    This is @actions/tool-cache's [find] for a non-empty tool name and a
    version that [semver.clean] leaves unchanged and that is explicit
    ([release_version] below): for those it checks exactly the directory
    [cacheFile] wrote for the same (tool, version). It does not model the
    errors on an empty tool name or version, nor the range matching of
    versions that are not explicit. *)
Definition find (tool version : string) : M (option string) :=
  emit (EvFind tool version) ;; cache_lookup (tool, version).

Definition downloadTool (w : world) (url : string) : M string :=
  emit (EvDownload url) ;; lift_ext (w_download w url).

Definition extractTar (w : world) (file dest : string) : M string :=
  emit (EvExtract file dest) ;; lift_ext (w_extract w file dest).

(** [cacheFile(src, target, tool, version)] copies the file into the
    cache directory of [(tool, version)] and returns that directory. *)
Definition cacheFile (w : world) (src target tool version : string) : M string :=
  emit (EvCacheFile src target tool version) ;;
  dir ← lift_ext (w_cache_file w src target tool version);
  cache_insert (tool, version) dir ;;
  mret dir.

(** [await exec(path, args)]: rejects when the process cannot be spawned
    or exits with a non-zero code. *)
Definition exec (w : world) (path : string) (args : list string) : M unit :=
  emit (EvExec path args) ;; lift_ext (w_exec w path args).

Definition setFailed (message : string) : M unit := emit (EvSetFailed message).

(* ------------------------------------------------------------------ *)
(** ** bootstrap.ts *)

Definition executeRustBinaryAction (getArgs : GetArguments) (w : world) : M unit :=
  let platform := w_platform w in
  if negb (is_supported platform) then throw (ExcError ("Unsupported platform: " +:+ platform))
  else
    toml ← read_manifest w;
    let tempDirectory := w_runner_temp w in
    let repository := pkg_repository toml in
    let version := pkg_version toml in
    name ← first_bin_name toml;
    let binaryName := binary_name platform name in
    let githubOrgAndName := github_org_and_name repository in
    let releaseUrl := release_url githubOrgAndName version name platform in
    found ← find githubOrgAndName version;
    cachedPath ← match found with
      | Some p => mret p
      | None =>
          downloadPath ← downloadTool w releaseUrl;
          extractPath ← extractTar w downloadPath tempDirectory;
          let extractedFile := path_join extractPath binaryName in
          cacheFile w extractedFile binaryName githubOrgAndName version
      end;
    let rustBinary := path_join cachedPath name in
    args ← lift_res (getArgs (w_input w));
    exec w rustBinary args.

(** The [.catch] handler: only [Error] instances are reported. *)
Definition catch_handler (e : exc) : M unit :=
  match e with
  | ExcError message => setFailed message
  | ExcValue _ => mret ()
  end.

(** [invokeWith(getArgs)]: runs the action and handles its rejection; it
    returns nothing, so only the final state is observable. *)
Definition invokeWith (getArgs : GetArguments) (w : world) (s : st) : st :=
  match executeRustBinaryAction getArgs w s with
  | (Ok _, s') => s'
  | (Throw e, s') => snd (catch_handler e s')
  end.

(* ------------------------------------------------------------------ *)
(** ** The older variant: [run(rustCommand)] *)

Definition execute_rust_binary_action (rustCommand : string) (w : world) : M unit :=
  let platform := w_platform w in
  if negb (is_supported platform) then throw (ExcError ("Unsupported platform: " +:+ platform))
  else
    toml ← read_manifest w;
    let name := pkg_name toml in
    let repository := pkg_repository toml in
    let version := pkg_version toml in
    let githubOrgAndName := github_org_and_name repository in
    found ← find githubOrgAndName version;
    cachedPath ← match found with
      | Some p => mret p
      | None =>
          let releaseUrl := release_url githubOrgAndName version name platform in
          downloadPath ← downloadTool w releaseUrl;
          let tempDirectory := w_runner_temp w in
          extractPath ← extractTar w downloadPath tempDirectory;
          let binaryName := binary_name platform name in
          let extractedFile := path_join extractPath binaryName in
          cacheFile w extractedFile binaryName githubOrgAndName version
      end;
    let rustBinary := path_join cachedPath name in
    exec w rustBinary [rustCommand].

Definition run (rustCommand : string) (w : world) (s : st) : st :=
  match execute_rust_binary_action rustCommand w s with
  | (Ok _, s') => s'
  | (Throw e, s') => snd (catch_handler e s')
  end.

(* ------------------------------------------------------------------ *)
(** ** The actions' argument callbacks *)

(** update-builder (first action of the unnamed part_000) *)
Definition update_builder_args : GetArguments := fun inputs =>
  res_bind (getInput inputs "path" true) (fun path =>
  res_bind (getInput inputs "buildpack-id" true) (fun id =>
  res_bind (getInput inputs "buildpack-version" true) (fun ver =>
  res_bind (getInput inputs "buildpack-uri" true) (fun uri =>
  res_bind (getInput inputs "builders" true) (fun builders =>
  Ok ["update-builder"; "--path"; path; "--buildpack-id"; id;
      "--buildpack-version"; ver; "--buildpack-uri"; uri; "--builders"; builders]))))).

(** prepare-release (top of the unnamed part_002) *)
Definition prepare_release_args : GetArguments := fun inputs =>
  res_bind (getInput inputs "bump" true) (fun bump =>
  res_bind (getInput inputs "repository-url" false) (fun url =>
  Ok ["prepare-release"; "--bump"; bump; "--repository-url"; url])).

(** update-builder without [--path] (second action of the unnamed part_000) *)
Definition update_builder_no_path_args : GetArguments := fun inputs =>
  res_bind (getInput inputs "buildpack-id" true) (fun id =>
  res_bind (getInput inputs "buildpack-version" true) (fun ver =>
  res_bind (getInput inputs "buildpack-uri" true) (fun uri =>
  res_bind (getInput inputs "builders" true) (fun builders =>
  Ok ["update-builder"; "--buildpack-id"; id; "--buildpack-version"; ver;
      "--buildpack-uri"; uri; "--builders"; builders])))).

(** update-builder of [.github/actions/update-builder/index.js] (input
    names with underscores) *)
Definition update_builder_index_args : GetArguments := fun inputs =>
  res_bind (getInput inputs "buildpack_id" true) (fun id =>
  res_bind (getInput inputs "buildpack_version" true) (fun ver =>
  res_bind (getInput inputs "buildpack_uri" true) (fun uri =>
  res_bind (getInput inputs "builders" true) (fun builders =>
  Ok ["update-builder"; "--buildpack-id"; id; "--buildpack-version"; ver;
      "--buildpack-uri"; uri; "--builders"; builders])))).

(** prepare (the unnamed part_001) *)
Definition prepare_args : GetArguments := fun inputs =>
  res_bind (getInput inputs "bump" true) (fun bump =>
  res_bind (getInput inputs "project_dir" false) (fun dir =>
  Ok ["prepare"; "--bump"; bump; dir])).

(* ------------------------------------------------------------------ *)
(** ** A concrete environment used in examples *)

Definition demo_manifest : manifest := {|
  pkg_name := "mycli"; pkg_version := "1.2.3";
  pkg_repository := "https://github.com/acme/mycli.git"; bin_names := ["mycli"] |}.

Definition demo_world (platform : string) (inputs : string -> string) : world := {|
  w_platform := platform;
  w_runner_temp := "/tmp/runner";
  w_manifest := inl demo_manifest;
  w_input := inputs;
  w_download := fun _ => inl "/tmp/runner/download";
  w_extract := fun _ _ => inl "/tmp/runner/extract";
  w_cache_file := fun _ _ tool version =>
    inl ("/opt/hostedtoolcache/" +:+ tool +:+ "/" +:+ version +:+ "/x64");
  w_exec := fun _ _ => inl () |}.

Definition empty_st : st := {| st_cache := ∅; st_trace := [] |}.

Definition all_inputs (name : string) : string :=
  if bool_decide (name = "bump") then "minor" else "".


(* ------------------------------------------------------------------ *)
(** ** Describing traces *)

(** Effects of the last phase of [invokeWith]: [getArgs], [exec] and the
    catch handler, for a given executable path. *)
Definition launch_events (w : world) (path : string) (r : res (list string)) : list event :=
  match r with
  | Ok args =>
      EvExec path args ::
      match w_exec w path args with inl _ => [] | inr m => [EvSetFailed m] end
  | Throw (ExcError m) => [EvSetFailed m]
  | Throw (ExcValue _) => []
  end.

Definition with_trace (s : st) (evs : list event) : st :=
  {| st_cache := st_cache s; st_trace := st_trace s ++ evs |}.

(* ------------------------------------------------------------------ *)
(** ** Concrete states used by the witnesses *)

Definition demo_dir : string := "/opt/hostedtoolcache/acme/mycli/1.2.3/x64".

Definition demo_cached_st : st :=
  {| st_cache := {[("acme/mycli", "1.2.3") := demo_dir]}; st_trace := [] |}.

Definition demo_url (platform : string) : string :=
  "https://github.com/acme/mycli/releases/download/v1.2.3/mycli-v1.2.3-" +:+ platform
  +:+ "-x64.tar.gz".

(** Projections of a trace. *)
Fixpoint downloads (l : list event) : list string :=
  match l with
  | [] => []
  | EvDownload u :: l' => u :: downloads l'
  | _ :: l' => downloads l'
  end.

(** The effects an invocation adds to the trace start from [s] satisfy:
    every spawned path is [cached directory / name], the cached directory
    being the one the cache holds for [key] afterwards, and every file
    registered into the cache is named [binary_name platform name]. *)
Definition spawns_bare_name (s s1 : st) (key : string * string) (platform name : string) : Prop :=
  exists d, st_trace s1 = st_trace s ++ d /\
    (forall path args, In (EvExec path args) d ->
       exists dir, st_cache s1 !! key = Some dir /\ path = path_join dir name) /\
    (forall src target tool version, In (EvCacheFile src target tool version) d ->
       target = binary_name platform name).

Definition no_inputs (name : string) : string := "".

(** A URL path segment as the claim's [org], [repo] and [host]: no [/]
    and no query or fragment start. *)
Fixpoint url_segment (s : string) : bool :=
  match s with
  | EmptyString => true
  | String c r => negb (bool_decide (c = "/"%char)) && negb (is_query_start c) && url_segment r
  end.

Fixpoint query_free (s : string) : bool :=
  match s with
  | EmptyString => true
  | String c r => negb (is_query_start c) && query_free r
  end.


(** Kinds of effect, to count repetitions. *)
Definition ev_kind (e : event) : nat :=
  match e with
  | EvReadManifest => 0
  | EvFind _ _ => 1
  | EvDownload _ => 2
  | EvExtract _ _ => 3
  | EvCacheFile _ _ _ _ => 4
  | EvExec _ _ => 5
  | EvSetFailed _ => 6
  end.

Fixpoint failures (l : list event) : list string :=
  match l with
  | [] => []
  | EvSetFailed m :: l' => m :: failures l'
  | _ :: l' => failures l'
  end.

(** The outcome [s_final] of the catch boundary for an action result [r]:
    unchanged on success, exactly one [setFailed] with the message of
    the [Error] on rejection. *)
Definition reported_once (r : res unit * st) (s_final : st) : Prop :=
  match r with
  | (Ok _, s') => s_final = s'
  | (Throw e, s') => exists m, e = ExcError m /\ s_final = with_trace s' [EvSetFailed m]
  end.

(** Every kind of effect occurs at most once after [s]. *)
Definition at_most_once (s s1 : st) : Prop :=
  exists d, st_trace s1 = st_trace s ++ d /\ NoDup (map ev_kind d).

(** A callback that throws a string rather than an [Error]. *)
Definition throwing_args : GetArguments := fun _ => Throw (ExcValue "boom").

(** The first of [names] whose input is empty. *)
Fixpoint first_missing (inputs : string -> string) (names : list string) : option string :=
  match names with
  | [] => None
  | n :: names' => if bool_decide (inputs n = "") then Some n else first_missing inputs names'
  end.

(** The same environment with another manifest. *)
Definition with_manifest (w : world) (toml : manifest) : world := {|
  w_platform := w_platform w; w_runner_temp := w_runner_temp w; w_manifest := inl toml;
  w_input := w_input w; w_download := w_download w; w_extract := w_extract w;
  w_cache_file := w_cache_file w; w_exec := w_exec w |}.

Definition first_bin_error : string :=
  "Cannot destructure property 'name' of 'toml.bin[0]' as it is undefined.".

Definition broken_manifest_world : world := {|
  w_platform := "linux"; w_runner_temp := "/tmp/runner";
  w_manifest := inr "Expected = but end of input found.";
  w_input := all_inputs; w_download := fun _ => inl "/tmp/runner/download";
  w_extract := fun _ _ => inl "/tmp/runner/extract";
  w_cache_file := fun _ _ _ _ => inl demo_dir; w_exec := fun _ _ => inl () |}.

Definition offline_world : world := {|
  w_platform := "darwin"; w_runner_temp := "/tmp/runner"; w_manifest := inl demo_manifest;
  w_input := all_inputs; w_download := fun _ => inr "Unexpected HTTP response: 404";
  w_extract := fun _ _ => inl "/tmp/runner/extract";
  w_cache_file := fun _ _ _ _ => inl demo_dir; w_exec := fun _ _ => inl () |}.

Definition corrupt_archive_world : world := {|
  w_platform := "linux"; w_runner_temp := "/tmp/runner"; w_manifest := inl demo_manifest;
  w_input := all_inputs; w_download := fun _ => inl "/tmp/runner/download";
  w_extract := fun _ _ => inr "The process '/usr/bin/tar' failed with exit code 2";
  w_cache_file := fun _ _ _ _ => inl demo_dir; w_exec := fun _ _ => inl () |}.

Definition missing_binary_world : world := {|
  w_platform := "win32"; w_runner_temp := "/tmp/runner"; w_manifest := inl demo_manifest;
  w_input := all_inputs; w_download := fun _ => inl "/tmp/runner/download";
  w_extract := fun _ _ => inl "/tmp/runner/extract";
  w_cache_file := fun _ _ _ _ => inr "sourceFile is not a file"; w_exec := fun _ _ => inl () |}.

(** Characters [url.parse] escapes in a path (its [autoEscape] list,
    with the backslash it rewrites to [/]). *)
Definition escaped_char (c : ascii) : bool :=
  existsb (fun n => bool_decide (c = ascii_of_nat n))
    [32; 9; 10; 13; 34; 39; 60; 62; 92; 94; 96; 123; 124; 125].

(** A path the parser keeps verbatim up to its query: no escaped
    character, no [?] and no [#]. *)
Fixpoint plain_path (s : string) : bool :=
  match s with
  | EmptyString => true
  | String c r => negb (escaped_char c) && negb (is_query_start c) && plain_path r
  end.

(** A host name of letters, digits, [.] and [-]. *)
Definition host_char (c : ascii) : bool :=
  let n := nat_of_ascii c in
  (Nat.leb 48 n && Nat.leb n 57) || (Nat.leb 65 n && Nat.leb n 90)
  || (Nat.leb 97 n && Nat.leb n 122) || bool_decide (n = 46) || bool_decide (n = 45).

Fixpoint host_name (s : string) : bool :=
  match s with
  | EmptyString => true
  | String c r => host_char c && host_name r
  end.






(** Characters a URL can carry without being trimmed or escaped by
    [url.parse]: printable ASCII other than the escaped ones. *)
Definition graphic (c : ascii) : bool :=
  let n := nat_of_ascii c in Nat.leb 33 n && Nat.leb n 126 && negb (escaped_char c).





(** A repository without a scheme that [url.parse] takes as its path:
    non-empty, printable, not escaped, and without [?], [#], [:] or [@]
    (an [@] after a leading [//] makes the parser read a host). *)
Fixpoint bare_chars (s : string) : bool :=
  match s with
  | EmptyString => true
  | String c r =>
      graphic c && negb (is_query_start c) && negb (bool_decide (c = ":"%char))
      && negb (bool_decide (c = "@"%char)) && bare_chars r
  end.

Definition bare_path (r : string) : bool :=
  match r with
  | EmptyString => false
  | String _ _ => bare_chars r
  end.

Fixpoint colon_free (s : string) : bool :=
  match s with
  | EmptyString => true
  | String c r => negb (bool_decide (c = ":"%char)) && colon_free r
  end.

(** Sample runs. *)

Example github_org_and_name_ex :
  github_org_and_name "https://github.com/acme/mycli.git" = "acme/mycli".
Proof. reflexivity. Qed.

Example demo_linux_trace :
  st_trace (invokeWith prepare_release_args (demo_world "linux" all_inputs) empty_st) =
  [EvReadManifest; EvFind "acme/mycli" "1.2.3";
   EvDownload "https://github.com/acme/mycli/releases/download/v1.2.3/mycli-v1.2.3-linux-x64.tar.gz";
   EvExtract "/tmp/runner/download" "/tmp/runner";
   EvCacheFile "/tmp/runner/extract/mycli" "mycli" "acme/mycli" "1.2.3";
   EvExec "/opt/hostedtoolcache/acme/mycli/1.2.3/x64/mycli"
     ["prepare-release"; "--bump"; "minor"; "--repository-url"; ""]].
Proof. vm_compute. reflexivity. Qed.

Ltac m_unfold :=
  unfold invokeWith, run, executeRustBinaryAction, execute_rust_binary_action,
    catch_handler, read_manifest, first_bin_name, find, downloadTool, extractTar,
    cacheFile, exec, setFailed, emit, lift_ext, lift_res, cache_lookup, cache_insert,
    throw, mbind, M_bind, mret, M_ret, launch_events, with_trace in *; cbn in *.

Lemma with_trace_app s l1 l2 :
  with_trace (with_trace s l1) l2 = with_trace s (l1 ++ l2).
Proof. unfold with_trace; cbn. by rewrite app_assoc. Qed.

(** Cache hit, bootstrap variant. *)
Lemma invokeWith_hit getArgs w s toml name rest dir :
  is_supported (w_platform w) = true ->
  w_manifest w = inl toml ->
  bin_names toml = name :: rest ->
  st_cache s !! (github_org_and_name (pkg_repository toml), pkg_version toml) = Some dir ->
  invokeWith getArgs w s =
  with_trace s ([EvReadManifest;
                 EvFind (github_org_and_name (pkg_repository toml)) (pkg_version toml)]
                ++ launch_events w (path_join dir name) (getArgs (w_input w))).
Proof.
  intros Hp Hm Hb Hc. m_unfold. rewrite Hp, Hm, Hb. cbn. rewrite Hc. cbn.
  destruct (getArgs (w_input w)) as [args|[m|v]]; cbn.
  - destruct (w_exec w _ args); cbn; by rewrite <-!app_assoc.
  - by rewrite <-!app_assoc.
  - by rewrite <-!app_assoc.
Qed.

(** Cache miss with a successful download, extraction and registration,
    bootstrap variant. *)
Lemma invokeWith_miss getArgs w s toml name rest dl ex dir :
  let platform := w_platform w in
  let g := github_org_and_name (pkg_repository toml) in
  let v := pkg_version toml in
  let bn := binary_name platform name in
  is_supported platform = true ->
  w_manifest w = inl toml ->
  bin_names toml = name :: rest ->
  st_cache s !! (g, v) = None ->
  w_download w (release_url g v name platform) = inl dl ->
  w_extract w dl (w_runner_temp w) = inl ex ->
  w_cache_file w (path_join ex bn) bn g v = inl dir ->
  invokeWith getArgs w s =
  {| st_cache := <[(g, v) := dir]> (st_cache s);
     st_trace := st_trace s ++
       [EvReadManifest; EvFind g v; EvDownload (release_url g v name platform);
        EvExtract dl (w_runner_temp w); EvCacheFile (path_join ex bn) bn g v]
       ++ launch_events w (path_join dir name) (getArgs (w_input w)) |}.
Proof.
  intros platform g v bn Hp Hm Hb Hc Hd He Hf. subst platform g v bn.
  m_unfold. rewrite Hp, Hm, Hb. cbn. rewrite Hc. cbn. rewrite Hd. cbn.
  rewrite He. cbn. rewrite Hf. cbn.
  destruct (getArgs (w_input w)) as [args|[m|v]]; cbn.
  - destruct (w_exec w _ args); cbn; by rewrite <-!app_assoc.
  - by rewrite <-!app_assoc.
  - by rewrite <-!app_assoc.
Qed.

(** Cache hit, older variant. *)
Lemma run_hit cmd w s toml dir :
  is_supported (w_platform w) = true ->
  w_manifest w = inl toml ->
  st_cache s !! (github_org_and_name (pkg_repository toml), pkg_version toml) = Some dir ->
  run cmd w s =
  with_trace s ([EvReadManifest;
                 EvFind (github_org_and_name (pkg_repository toml)) (pkg_version toml)]
                ++ launch_events w (path_join dir (pkg_name toml)) (Ok [cmd])).
Proof.
  intros Hp Hm Hc. m_unfold. rewrite Hp, Hm. cbn. rewrite Hc. cbn.
  destruct (w_exec w _ [cmd]); cbn; by rewrite <-!app_assoc.
Qed.


(** Unsupported platform: the action rejects before its first effect. *)
Lemma execute_unsupported getArgs cmd w s :
  is_supported (w_platform w) = false ->
  executeRustBinaryAction getArgs w s =
    (Throw (ExcError ("Unsupported platform: " +:+ w_platform w)), s) /\
  execute_rust_binary_action cmd w s =
    (Throw (ExcError ("Unsupported platform: " +:+ w_platform w)), s).
Proof. intros Hp. unfold executeRustBinaryAction, execute_rust_binary_action. by rewrite Hp. Qed.

(** Facts about [+:+]. *)
Lemma str_app_length (a b : string) : Strings.String.length (a +:+ b) = Strings.String.length a + Strings.String.length b.
Proof. induction a as [|c a IH]; [reflexivity | exact (f_equal S IH)]. Qed.

Lemma str_app_assoc (a b c : string) : a +:+ (b +:+ c) = (a +:+ b) +:+ c.
Proof. induction a as [|x a IH]; [reflexivity | exact (f_equal (String x) IH)]. Qed.

Lemma str_app_nil (a : string) : a +:+ "" = a.
Proof. induction a as [|x a IH]; [reflexivity | exact (f_equal (String x) IH)]. Qed.

Lemma str_neq_app_exe (name : string) : name <> name +:+ ".exe".
Proof.
  intros H. apply (f_equal Strings.String.length) in H. rewrite str_app_length in H. cbn in H. lia.
Qed.

(* ------------------------------------------------------------------ *)
(** ** Claims *)

(** C1: when the cache lookup for (org/repo, version) finds a directory,
    both variants perform no download, no extraction and no cache
    registration: after reading the manifest and the lookup they go
    straight to executing [cached directory / name]. *)
Theorem cache_hit_no_download getArgs cmd w s toml name rest dir :
  is_supported (w_platform w) = true ->
  w_manifest w = inl toml ->
  bin_names toml = name :: rest ->
  st_cache s !! (github_org_and_name (pkg_repository toml), pkg_version toml) = Some dir ->
  invokeWith getArgs w s =
    with_trace s ([EvReadManifest;
                   EvFind (github_org_and_name (pkg_repository toml)) (pkg_version toml)]
                  ++ launch_events w (path_join dir name) (getArgs (w_input w))) /\
  run cmd w s =
    with_trace s ([EvReadManifest;
                   EvFind (github_org_and_name (pkg_repository toml)) (pkg_version toml)]
                  ++ launch_events w (path_join dir (pkg_name toml)) (Ok [cmd])).
Proof.
  intros Hp Hm Hb Hc. split.
  - by eapply invokeWith_hit.
  - by eapply run_hit.
Qed.

Lemma cache_hit_no_download_witness :
  invokeWith prepare_release_args (demo_world "linux" all_inputs) demo_cached_st =
    with_trace demo_cached_st ([EvReadManifest; EvFind "acme/mycli" "1.2.3"]
      ++ launch_events (demo_world "linux" all_inputs) (path_join demo_dir "mycli")
           (prepare_release_args all_inputs)) /\
  run "prepare" (demo_world "linux" all_inputs) demo_cached_st =
    with_trace demo_cached_st ([EvReadManifest; EvFind "acme/mycli" "1.2.3"]
      ++ launch_events (demo_world "linux" all_inputs) (path_join demo_dir "mycli")
           (Ok ["prepare"])).
Proof.
  apply (cache_hit_no_download prepare_release_args "prepare" (demo_world "linux" all_inputs)
           demo_cached_st demo_manifest "mycli" [] demo_dir);
    vm_compute; reflexivity.
Defined.



(** C6: on a platform other than win32, darwin and linux, both variants
    report [Unsupported platform: <platform>] and do nothing else: no
    manifest read, no cache access, no download, no process spawn. *)
Theorem unsupported_platform_fails_first getArgs cmd w s :
  is_supported (w_platform w) = false ->
  invokeWith getArgs w s = with_trace s [EvSetFailed ("Unsupported platform: " +:+ w_platform w)] /\
  run cmd w s = with_trace s [EvSetFailed ("Unsupported platform: " +:+ w_platform w)].
Proof.
  intros Hp. destruct (execute_unsupported getArgs cmd w s Hp) as [H1 H2].
  unfold invokeWith, run. rewrite H1, H2. split; reflexivity.
Qed.

Lemma unsupported_platform_fails_first_witness :
  invokeWith prepare_release_args (demo_world "freebsd" all_inputs) empty_st =
    with_trace empty_st [EvSetFailed ("Unsupported platform: " +:+ "freebsd")] /\
  run "prepare" (demo_world "freebsd" all_inputs) empty_st =
    with_trace empty_st [EvSetFailed ("Unsupported platform: " +:+ "freebsd")].
Proof.
  exact (unsupported_platform_fails_first prepare_release_args "prepare"
           (demo_world "freebsd" all_inputs) empty_st eq_refl).
Defined.

(** C7: for a supported platform the binary file name is the name with
    [.exe] appended exactly when the platform is win32, and the bare name
    on darwin and linux. *)
Theorem binary_name_exe_iff_win32 platform name :
  is_supported platform = true ->
  (binary_name platform name = name +:+ ".exe" <-> platform = "win32") /\
  (platform = "darwin" \/ platform = "linux" -> binary_name platform name = name).
Proof.
  intros Hs. unfold binary_name. split.
  - case_bool_decide as Hw; split; try done.
    intros H. by destruct (str_neq_app_exe name).
  - intros [-> | ->]; reflexivity.
Qed.

Lemma binary_name_exe_iff_win32_witness :
  (binary_name "win32" "mycli" = "mycli" +:+ ".exe" <-> "win32" = "win32") /\
  ("win32" = "darwin" \/ "win32" = "linux" -> binary_name "win32" "mycli" = "mycli").
Proof. exact (binary_name_exe_iff_win32 "win32" "mycli" eq_refl). Defined.

Lemma downloads_app l1 l2 : downloads (l1 ++ l2) = downloads l1 ++ downloads l2.
Proof. induction l1 as [|[] l1 IH]; cbn; rewrite ?IH; done. Qed.

Ltac explore :=
  m_unfold; repeat (case_match; cbn in *; simplify_eq/=).

(** C3: on a cache miss each variant downloads exactly one URL, namely
    [https://github.com/{org}/{repo}/releases/download/v{version}/{name}-v{version}-{platform}-x64.tar.gz]. *)
Theorem release_url_pattern getArgs cmd w s toml name rest :
  let platform := w_platform w in
  let g := github_org_and_name (pkg_repository toml) in
  let v := pkg_version toml in
  let url := "https://github.com/" +:+ g +:+ "/releases/download/v" +:+ v +:+ "/" +:+ name
             +:+ "-v" +:+ v +:+ "-" +:+ platform +:+ "-x64.tar.gz" in
  is_supported platform = true ->
  w_manifest w = inl toml ->
  st_cache s !! (g, v) = None ->
  (bin_names toml = name :: rest ->
   downloads (st_trace (invokeWith getArgs w s)) = downloads (st_trace s) ++ [url]) /\
  (pkg_name toml = name ->
   downloads (st_trace (run cmd w s)) = downloads (st_trace s) ++ [url]).
Proof.
  intros platform g v url Hp Hm Hc. subst platform g v url. split.
  - intros Hb. m_unfold. rewrite Hp, Hm, Hb. cbn. rewrite Hc. cbn.
    explore; rewrite ?downloads_app; cbn; rewrite ?app_nil_r; reflexivity.
  - intros Hn. subst name. m_unfold. rewrite Hp, Hm. cbn. rewrite Hc. cbn.
    explore; rewrite ?downloads_app; cbn; rewrite ?app_nil_r; reflexivity.
Qed.

Lemma release_url_pattern_witness :
  (bin_names demo_manifest = "mycli" :: [] ->
   downloads (st_trace (invokeWith prepare_release_args (demo_world "linux" all_inputs) empty_st)) =
   downloads [] ++ ["https://github.com/" +:+ "acme/mycli" +:+ "/releases/download/v" +:+ "1.2.3"
                    +:+ "/" +:+ "mycli" +:+ "-v" +:+ "1.2.3" +:+ "-" +:+ "linux" +:+ "-x64.tar.gz"]) /\
  (pkg_name demo_manifest = "mycli" ->
   downloads (st_trace (run "prepare" (demo_world "linux" all_inputs) empty_st)) =
   downloads [] ++ ["https://github.com/" +:+ "acme/mycli" +:+ "/releases/download/v" +:+ "1.2.3"
                    +:+ "/" +:+ "mycli" +:+ "-v" +:+ "1.2.3" +:+ "-" +:+ "linux" +:+ "-x64.tar.gz"]).
Proof.
  exact (release_url_pattern prepare_release_args "prepare" (demo_world "linux" all_inputs)
           empty_st demo_manifest "mycli" [] eq_refl eq_refl eq_refl).
Defined.

(** [path.join(dir, name)] differs from [path.join(dir, name + '.exe')]. *)
Lemma path_join_bare_ne dir name : path_join dir name <> path_join dir (name +:+ ".exe").
Proof.
  unfold path_join. intros H. apply (inj (String.append dir)) in H.
  apply (inj (String.append "/")) in H. by apply (str_neq_app_exe name).
Qed.

Ltac close_spawns :=
  eexists; split; [rewrite <-?app_assoc; reflexivity|];
  split; intros *; cbn; intros Hin; repeat destruct Hin as [Hin|Hin]; simplify_eq; try done;
  eexists; (split; [rewrite ?lookup_insert_eq; eassumption || reflexivity | reflexivity]).

(** C4: in both variants the executable handed to [exec] is the cached
    directory joined with the bare binary name, while the file registered
    into the cache is named with the platform-adjusted name; on win32 the
    spawned path therefore lacks the [.exe] suffix of the registered
    file. *)
Theorem exec_path_bare_name getArgs cmd w s toml name rest :
  let platform := w_platform w in
  let key := (github_org_and_name (pkg_repository toml), pkg_version toml) in
  is_supported platform = true ->
  w_manifest w = inl toml ->
  (bin_names toml = name :: rest -> spawns_bare_name s (invokeWith getArgs w s) key platform name) /\
  (pkg_name toml = name -> spawns_bare_name s (run cmd w s) key platform name) /\
  (platform = "win32" -> binary_name platform name = name +:+ ".exe" /\
     forall dir, path_join dir name <> path_join dir (binary_name platform name)).
Proof.
  intros platform key Hp Hm. subst platform key. split; [|split].
  - intros Hb. m_unfold. rewrite Hp, Hm, Hb. cbn. explore; close_spawns.
  - intros Hn. subst name. m_unfold. rewrite Hp, Hm. cbn. explore; close_spawns.
  - intros Hw. unfold binary_name. rewrite Hw, bool_decide_true by done.
    split; [done|]. intros dir. apply path_join_bare_ne.
Qed.

Lemma exec_path_bare_name_witness :
  let w := demo_world "win32" all_inputs in
  let key := (github_org_and_name (pkg_repository demo_manifest), pkg_version demo_manifest) in
  (bin_names demo_manifest = "mycli" :: [] ->
   spawns_bare_name empty_st (invokeWith prepare_release_args w empty_st) key "win32" "mycli") /\
  (pkg_name demo_manifest = "mycli" ->
   spawns_bare_name empty_st (run "prepare" w empty_st) key "win32" "mycli") /\
  ("win32" = "win32" -> binary_name "win32" "mycli" = "mycli" +:+ ".exe" /\
     forall dir, path_join dir "mycli" <> path_join dir (binary_name "win32" "mycli")).
Proof.
  exact (exec_path_bare_name prepare_release_args "prepare" (demo_world "win32" all_inputs)
           empty_st demo_manifest "mycli" [] eq_refl eq_refl).
Defined.

(** C5 (as stated, refuted): with the required input [bump] missing and
    an empty cache, the invocation downloads, extracts and registers the
    release before it fails on the missing input. *)
Lemma missing_input_after_download :
  st_trace (invokeWith prepare_release_args (demo_world "linux" no_inputs) empty_st) =
  [EvReadManifest; EvFind "acme/mycli" "1.2.3"; EvDownload (demo_url "linux");
   EvExtract "/tmp/runner/download" "/tmp/runner";
   EvCacheFile "/tmp/runner/extract/mycli" "mycli" "acme/mycli" "1.2.3";
   EvSetFailed "Input required and not supplied: bump"].
Proof. vm_compute. reflexivity. Qed.

(** C5 (amended): a missing required input is reported as
    [Input required and not supplied: <name>] and no process is spawned,
    but the inputs are read only after the manifest read, the cache
    lookup and, on a cache miss, the download, the extraction and the
    cache registration. *)
Theorem missing_input_reported_after_resolution getArgs w s toml name rest iname :
  let g := github_org_and_name (pkg_repository toml) in
  let v := pkg_version toml in
  let platform := w_platform w in
  let bn := binary_name platform name in
  let msg := input_required_message iname in
  is_supported platform = true ->
  w_manifest w = inl toml ->
  bin_names toml = name :: rest ->
  getArgs (w_input w) = Throw (ExcError msg) ->
  (forall dir, st_cache s !! (g, v) = Some dir ->
     invokeWith getArgs w s = with_trace s [EvReadManifest; EvFind g v; EvSetFailed msg]) /\
  (forall dl ex dir,
     st_cache s !! (g, v) = None ->
     w_download w (release_url g v name platform) = inl dl ->
     w_extract w dl (w_runner_temp w) = inl ex ->
     w_cache_file w (path_join ex bn) bn g v = inl dir ->
     invokeWith getArgs w s =
       {| st_cache := <[(g, v) := dir]> (st_cache s);
          st_trace := st_trace s ++
            [EvReadManifest; EvFind g v; EvDownload (release_url g v name platform);
             EvExtract dl (w_runner_temp w); EvCacheFile (path_join ex bn) bn g v;
             EvSetFailed msg] |}).
Proof.
  intros g v platform bn msg Hp Hm Hb Ha. split.
  - intros dir Hc. rewrite (invokeWith_hit getArgs w s toml name rest dir); try done.
    by rewrite Ha.
  - intros dl ex dir Hc Hd He Hf.
    rewrite (invokeWith_miss getArgs w s toml name rest dl ex dir); try done.
    by rewrite Ha.
Qed.

Lemma missing_input_reported_after_resolution_witness :
  let w := demo_world "linux" no_inputs in
  let msg := input_required_message "bump" in
  (forall dir, st_cache empty_st !! ("acme/mycli", "1.2.3") = Some dir ->
     invokeWith prepare_release_args w empty_st =
       with_trace empty_st [EvReadManifest; EvFind "acme/mycli" "1.2.3"; EvSetFailed msg]) /\
  (forall dl ex dir,
     st_cache empty_st !! ("acme/mycli", "1.2.3") = None ->
     w_download w (demo_url "linux") = inl dl ->
     w_extract w dl "/tmp/runner" = inl ex ->
     w_cache_file w (path_join ex "mycli") "mycli" "acme/mycli" "1.2.3" = inl dir ->
     invokeWith prepare_release_args w empty_st =
       {| st_cache := <[("acme/mycli", "1.2.3") := dir]> ∅;
          st_trace := [] ++
            [EvReadManifest; EvFind "acme/mycli" "1.2.3"; EvDownload (demo_url "linux");
             EvExtract dl "/tmp/runner"; EvCacheFile (path_join ex "mycli") "mycli" "acme/mycli" "1.2.3";
             EvSetFailed msg] |}).
Proof.
  exact (missing_input_reported_after_resolution prepare_release_args (demo_world "linux" no_inputs)
           empty_st demo_manifest "mycli" [] "bump" eq_refl eq_refl eq_refl eq_refl).
Defined.

(* ------------------------------------------------------------------ *)
(** ** Deriving org/repo from the repository URL *)

Lemma str_app_cons c (a b : string) : String c a +:+ b = String c (a +:+ b).
Proof. reflexivity. Qed.



Lemma path_until_query_free s : query_free s = true -> path_until_query s = s.
Proof.
  induction s as [|c s IH]; [done|]. cbn.
  destruct (is_query_start c); cbn; [done|]. intros H. by rewrite IH.
Qed.

Lemma from_first_slash_host host path :
  url_segment host = true -> from_first_slash (host +:+ String "/" path) = path_until_query (String "/" path).
Proof.
  induction host as [|c host IH]; [done|]. rewrite str_app_cons. cbn.
  destruct (bool_decide (c = "/"%char)), (is_query_start c); cbn; done || auto.
Qed.


Lemma strip_git_suffix_cons c r :
  strip_git_suffix (String c r) =
  if bool_decide (String c r = ".git") then EmptyString else String c (strip_git_suffix r).
Proof. reflexivity. Qed.


Lemma strip_git_suffix_git s : strip_git_suffix (s +:+ ".git") = s.
Proof.
  induction s as [|c s IH]; [reflexivity|].
  rewrite str_app_cons, strip_git_suffix_cons, bool_decide_false, IH; [done|].
  intros H. apply (f_equal Strings.String.length) in H. cbn in H.
  rewrite str_app_length in H. cbn in H. lia.
Qed.


Lemma str_slash (x : string) : "/" +:+ x = String "/" x.
Proof. reflexivity. Qed.

Lemma scheme_rest_https r : scheme_rest ("https://" +:+ r) = Some r.
Proof. reflexivity. Qed.

Lemma strip_leading_slash_slash x : strip_leading_slash (String "/" x) = x.
Proof. reflexivity. Qed.






(* ------------------------------------------------------------------ *)
(** ** The top-level catch *)

Lemma failures_app l1 l2 : failures (l1 ++ l2) = failures l1 ++ failures l2.
Proof. induction l1 as [|[] l1 IH]; cbn; rewrite ?IH; done. Qed.

(** Only the callback can reject with something other than an [Error]. *)
Lemma execute_rejects_with_error getArgs w s v s' :
  executeRustBinaryAction getArgs w s = (Throw (ExcValue v), s') ->
  getArgs (w_input w) = Throw (ExcValue v).
Proof. unfold executeRustBinaryAction. explore; intros Heq; by simplify_eq. Qed.

Lemma execute_rust_binary_action_rejects_with_error cmd w s v s' :
  execute_rust_binary_action cmd w s <> (Throw (ExcValue v), s').
Proof. unfold execute_rust_binary_action. explore; intros Heq; by simplify_eq. Qed.

(** The action itself never calls [setFailed]. *)
Lemma execute_no_failures getArgs w s r s' :
  executeRustBinaryAction getArgs w s = (r, s') -> failures (st_trace s') = failures (st_trace s).
Proof.
  unfold executeRustBinaryAction.
  explore; intros Heq; simplify_eq/=; rewrite ?failures_app; cbn; rewrite ?app_nil_r; done.
Qed.

Lemma execute_rust_binary_action_no_failures cmd w s r s' :
  execute_rust_binary_action cmd w s = (r, s') -> failures (st_trace s') = failures (st_trace s).
Proof.
  unfold execute_rust_binary_action.
  explore; intros Heq; simplify_eq/=; rewrite ?failures_app; cbn; rewrite ?app_nil_r; done.
Qed.

Ltac close_once :=
  eexists; split; [rewrite <-?app_assoc; reflexivity|]; apply (bool_decide_unpack _); reflexivity.

(** C9: with every rejection an [Error] (which all library failures,
    the missing-input failure and the unsupported-platform failure are),
    both entry points turn a rejection into exactly one [setFailed]
    carrying the error's message and nothing else, and no effect is
    performed twice (no retry). *)
Theorem single_top_level_failure getArgs cmd w s :
  (forall v, getArgs (w_input w) <> Throw (ExcValue v)) ->
  reported_once (executeRustBinaryAction getArgs w s) (invokeWith getArgs w s) /\
  reported_once (execute_rust_binary_action cmd w s) (run cmd w s) /\
  at_most_once s (invokeWith getArgs w s) /\
  at_most_once s (run cmd w s).
Proof.
  intros Hv. split; [|split; [|split]].
  - unfold invokeWith, reported_once.
    destruct (executeRustBinaryAction getArgs w s) as [[u|[m|v]] s'] eqn:E; try done.
    + by exists m.
    + apply execute_rejects_with_error in E. by destruct (Hv v).
  - unfold run, reported_once.
    destruct (execute_rust_binary_action cmd w s) as [[u|[m|v]] s'] eqn:E; try done.
    + by exists m.
    + by destruct (execute_rust_binary_action_rejects_with_error cmd w s v s').
  - explore; close_once.
  - explore; close_once.
Qed.

Lemma single_top_level_failure_witness :
  let w := demo_world "linux" no_inputs in
  reported_once (executeRustBinaryAction prepare_release_args w empty_st)
    (invokeWith prepare_release_args w empty_st) /\
  reported_once (execute_rust_binary_action "prepare" w empty_st) (run "prepare" w empty_st) /\
  at_most_once empty_st (invokeWith prepare_release_args w empty_st) /\
  at_most_once empty_st (run "prepare" w empty_st).
Proof.
  apply (single_top_level_failure prepare_release_args "prepare" (demo_world "linux" no_inputs)).
  intros v H. vm_compute in H. discriminate.
Defined.

(** C10: when the action rejects with a value that is not an [Error],
    the catch handler does nothing: the final state is the one the
    rejected action left, and no [setFailed] happened. *)
Theorem non_error_rejection_swallowed getArgs w s v s' :
  executeRustBinaryAction getArgs w s = (Throw (ExcValue v), s') ->
  invokeWith getArgs w s = s' /\ failures (st_trace (invokeWith getArgs w s)) = failures (st_trace s).
Proof.
  intros E. assert (Hs : invokeWith getArgs w s = s') by (unfold invokeWith; by rewrite E).
  split; [done|]. rewrite Hs. by eapply execute_no_failures.
Qed.

Lemma non_error_rejection_swallowed_witness :
  let w := demo_world "linux" all_inputs in
  invokeWith throwing_args w empty_st = snd (executeRustBinaryAction throwing_args w empty_st) /\
  failures (st_trace (invokeWith throwing_args w empty_st)) = failures [].
Proof.
  apply (non_error_rejection_swallowed throwing_args (demo_world "linux" all_inputs) empty_st "boom").
  vm_compute. reflexivity.
Defined.

Example throwing_args_trace :
  st_trace (invokeWith throwing_args (demo_world "linux" all_inputs) empty_st) =
  [EvReadManifest; EvFind "acme/mycli" "1.2.3"; EvDownload (demo_url "linux");
   EvExtract "/tmp/runner/download" "/tmp/runner";
   EvCacheFile "/tmp/runner/extract/mycli" "mycli" "acme/mycli" "1.2.3"].
Proof. vm_compute. reflexivity. Qed.

(* ------------------------------------------------------------------ *)
(** ** The actions' argument callbacks *)

Ltac solve_callback :=
  repeat (case_bool_decide; cbn); try reflexivity; eauto 12.

(** update-builder (part_000, first action): the callback fails exactly
    when one of its five required inputs is empty, naming the first empty
    one in the order path, buildpack-id, buildpack-version, buildpack-uri,
    builders; otherwise it returns eleven arguments, the flags at fixed
    positions. *)
Theorem update_builder_args_inputs inputs :
  match first_missing inputs ["path"; "buildpack-id"; "buildpack-version"; "buildpack-uri"; "builders"] with
  | Some n => update_builder_args inputs = Throw (ExcError (input_required_message n))
  | None => exists p i v u b, update_builder_args inputs =
      Ok ["update-builder"; "--path"; p; "--buildpack-id"; i; "--buildpack-version"; v;
          "--buildpack-uri"; u; "--builders"; b]
  end.
Proof. unfold update_builder_args, getInput; cbn. solve_callback. Qed.

(** update-builder without [--path] (part_000, second action): same
    behaviour over its four required inputs. *)
Theorem update_builder_no_path_args_inputs inputs :
  match first_missing inputs ["buildpack-id"; "buildpack-version"; "buildpack-uri"; "builders"] with
  | Some n => update_builder_no_path_args inputs = Throw (ExcError (input_required_message n))
  | None => exists i v u b, update_builder_no_path_args inputs =
      Ok ["update-builder"; "--buildpack-id"; i; "--buildpack-version"; v;
          "--buildpack-uri"; u; "--builders"; b]
  end.
Proof. unfold update_builder_no_path_args, getInput; cbn. solve_callback. Qed.

(** update-builder of index.js: its required inputs are spelled with
    underscores (buildpack_id, buildpack_version, buildpack_uri, builders),
    the first empty one is reported, and the arguments it produces use the
    dashed flags. *)
Theorem update_builder_index_args_inputs inputs :
  match first_missing inputs ["buildpack_id"; "buildpack_version"; "buildpack_uri"; "builders"] with
  | Some n => update_builder_index_args inputs = Throw (ExcError (input_required_message n))
  | None => exists i v u b, update_builder_index_args inputs =
      Ok ["update-builder"; "--buildpack-id"; i; "--buildpack-version"; v;
          "--buildpack-uri"; u; "--builders"; b]
  end.
Proof. unfold update_builder_index_args, getInput; cbn. solve_callback. Qed.

(** prepare (part_001): only an empty [bump] makes the callback fail;
    [project_dir] is optional and is always passed as the fourth
    argument, empty when the input is unset. *)
Theorem prepare_args_inputs inputs :
  (inputs "bump" = "" -> prepare_args inputs = Throw (ExcError (input_required_message "bump"))) /\
  (inputs "bump" <> "" ->
   exists b d, prepare_args inputs = Ok ["prepare"; "--bump"; b; d] /\
     (inputs "project_dir" = "" -> d = "")).
Proof.
  unfold prepare_args, getInput; cbn. split; intros H.
  - by rewrite bool_decide_true.
  - rewrite bool_decide_false by done. cbn. eauto.
Qed.

(** prepare-release (part_002): only an empty [bump] makes the callback
    fail; [repository-url] is optional and is passed after
    [--repository-url], empty when the input is unset. *)
Theorem prepare_release_args_inputs inputs :
  (inputs "bump" = "" ->
   prepare_release_args inputs = Throw (ExcError (input_required_message "bump"))) /\
  (inputs "bump" <> "" ->
   exists b u, (prepare_release_args inputs =
     Ok ["prepare-release"; "--bump"; b; "--repository-url"; u]) /\
     (inputs "repository-url" = "" -> u = "")).
Proof.
  unfold prepare_release_args, getInput; cbn. split; intros H.
  - by rewrite bool_decide_true.
  - rewrite bool_decide_false by done. cbn. eauto.
Qed.

(* ------------------------------------------------------------------ *)
(** ** Failure paths of the launcher *)

(** An empty [bin] list makes [executeRustBinaryAction] fail right after
    reading the manifest, with the [TypeError] of destructuring
    [toml.bin[0]]: no cache lookup, no download, no spawn. *)
Theorem invokeWith_no_bin getArgs w s toml :
  is_supported (w_platform w) = true ->
  w_manifest w = inl toml ->
  bin_names toml = [] ->
  invokeWith getArgs w s = with_trace s [EvReadManifest; EvSetFailed first_bin_error].
Proof. intros Hp Hm Hb. m_unfold. rewrite Hp, Hm, Hb. cbn. by rewrite <-!app_assoc. Qed.

Lemma invokeWith_no_bin_witness :
  invokeWith prepare_release_args
    (with_manifest (demo_world "linux" all_inputs)
       {| pkg_name := "mycli"; pkg_version := "1.2.3";
          pkg_repository := "https://github.com/acme/mycli.git"; bin_names := [] |}) empty_st =
  with_trace empty_st [EvReadManifest; EvSetFailed first_bin_error].
Proof. by apply invokeWith_no_bin with
  (toml := {| pkg_name := "mycli"; pkg_version := "1.2.3";
              pkg_repository := "https://github.com/acme/mycli.git"; bin_names := [] |}). Defined.

(** A manifest that cannot be read or parsed is reported with its error
    message; neither variant touches the cache. *)
Theorem manifest_failure_reported getArgs cmd w s m :
  is_supported (w_platform w) = true ->
  w_manifest w = inr m ->
  invokeWith getArgs w s = with_trace s [EvReadManifest; EvSetFailed m] /\
  run cmd w s = with_trace s [EvReadManifest; EvSetFailed m].
Proof. intros Hp Hm. m_unfold. rewrite Hp, Hm. cbn. split; by rewrite <-!app_assoc. Qed.


Lemma manifest_failure_reported_witness :
  invokeWith prepare_release_args broken_manifest_world empty_st =
    with_trace empty_st [EvReadManifest; EvSetFailed "Expected = but end of input found."] /\
  run "prepare" broken_manifest_world empty_st =
    with_trace empty_st [EvReadManifest; EvSetFailed "Expected = but end of input found."].
Proof. by apply manifest_failure_reported. Defined.

(** A failed download on a cache miss is reported with its message; there
    is no extraction, no registration and no spawn, and the cache is left
    as it was (so the next invocation downloads again). *)
Theorem download_failure_reported getArgs cmd w s toml name rest m :
  let platform := w_platform w in
  let g := github_org_and_name (pkg_repository toml) in
  let v := pkg_version toml in
  let fail := [EvReadManifest; EvFind g v; EvDownload (release_url g v name platform);
               EvSetFailed m] in
  is_supported platform = true ->
  w_manifest w = inl toml ->
  st_cache s !! (g, v) = None ->
  w_download w (release_url g v name platform) = inr m ->
  (bin_names toml = name :: rest -> invokeWith getArgs w s = with_trace s fail) /\
  (pkg_name toml = name -> run cmd w s = with_trace s fail).
Proof.
  intros platform g v fail Hp Hm Hc Hd. subst platform g v fail. split.
  - intros Hb. m_unfold. rewrite Hp, Hm, Hb. cbn. rewrite Hc. cbn. rewrite Hd. cbn.
    by rewrite <-!app_assoc.
  - intros <-. m_unfold. rewrite Hp, Hm. cbn. rewrite Hc. cbn. rewrite Hd. cbn.
    by rewrite <-!app_assoc.
Qed.

Lemma download_failure_reported_witness :
  let fail := [EvReadManifest; EvFind "acme/mycli" "1.2.3"; EvDownload (demo_url "darwin");
               EvSetFailed "Unexpected HTTP response: 404"] in
  ("mycli" :: [] = "mycli" :: [] -> invokeWith prepare_release_args offline_world empty_st =
                                     with_trace empty_st fail) /\
  ("mycli" = "mycli" -> run "prepare" offline_world empty_st = with_trace empty_st fail).
Proof.
  exact (download_failure_reported prepare_release_args "prepare" offline_world empty_st
           demo_manifest "mycli" [] "Unexpected HTTP response: 404" eq_refl eq_refl eq_refl eq_refl).
Defined.

(** A failed extraction is reported with its message: nothing is
    registered, nothing is spawned and the cache is left as it was. *)
Theorem extraction_failure_reported getArgs cmd w s toml name rest dl m :
  let platform := w_platform w in
  let g := github_org_and_name (pkg_repository toml) in
  let v := pkg_version toml in
  let fail := [EvReadManifest; EvFind g v; EvDownload (release_url g v name platform);
               EvExtract dl (w_runner_temp w); EvSetFailed m] in
  is_supported platform = true ->
  w_manifest w = inl toml ->
  st_cache s !! (g, v) = None ->
  w_download w (release_url g v name platform) = inl dl ->
  w_extract w dl (w_runner_temp w) = inr m ->
  (bin_names toml = name :: rest -> invokeWith getArgs w s = with_trace s fail) /\
  (pkg_name toml = name -> run cmd w s = with_trace s fail).
Proof.
  intros platform g v fail Hp Hm Hc Hd He. subst platform g v fail. split.
  - intros Hb. m_unfold. rewrite Hp, Hm, Hb. cbn. rewrite Hc. cbn. rewrite Hd. cbn.
    rewrite He. cbn. by rewrite <-!app_assoc.
  - intros <-. m_unfold. rewrite Hp, Hm. cbn. rewrite Hc. cbn. rewrite Hd. cbn.
    rewrite He. cbn. by rewrite <-!app_assoc.
Qed.

Lemma extraction_failure_reported_witness :
  let fail := [EvReadManifest; EvFind "acme/mycli" "1.2.3"; EvDownload (demo_url "linux");
               EvExtract "/tmp/runner/download" "/tmp/runner";
               EvSetFailed "The process '/usr/bin/tar' failed with exit code 2"] in
  ("mycli" :: [] = "mycli" :: [] -> invokeWith prepare_release_args corrupt_archive_world empty_st =
                                     with_trace empty_st fail) /\
  ("mycli" = "mycli" -> run "prepare" corrupt_archive_world empty_st = with_trace empty_st fail).
Proof.
  exact (extraction_failure_reported prepare_release_args "prepare" corrupt_archive_world empty_st
           demo_manifest "mycli" [] "/tmp/runner/download"
           "The process '/usr/bin/tar' failed with exit code 2"
           eq_refl eq_refl eq_refl eq_refl eq_refl).
Defined.

(** A failed registration (e.g. the archive does not contain the expected
    file) is reported with its message: nothing is spawned and the cache
    is left as it was. *)
Theorem registration_failure_reported getArgs cmd w s toml name rest dl ex m :
  let platform := w_platform w in
  let g := github_org_and_name (pkg_repository toml) in
  let v := pkg_version toml in
  let bn := binary_name platform name in
  let fail := [EvReadManifest; EvFind g v; EvDownload (release_url g v name platform);
               EvExtract dl (w_runner_temp w); EvCacheFile (path_join ex bn) bn g v;
               EvSetFailed m] in
  is_supported platform = true ->
  w_manifest w = inl toml ->
  st_cache s !! (g, v) = None ->
  w_download w (release_url g v name platform) = inl dl ->
  w_extract w dl (w_runner_temp w) = inl ex ->
  w_cache_file w (path_join ex bn) bn g v = inr m ->
  (bin_names toml = name :: rest -> invokeWith getArgs w s = with_trace s fail) /\
  (pkg_name toml = name -> run cmd w s = with_trace s fail).
Proof.
  intros platform g v bn fail Hp Hm Hc Hd He Hf. subst platform g v bn fail. split.
  - intros Hb. m_unfold. rewrite Hp, Hm, Hb. cbn. rewrite Hc. cbn. rewrite Hd. cbn.
    rewrite He. cbn. rewrite Hf. cbn. by rewrite <-!app_assoc.
  - intros <-. m_unfold. rewrite Hp, Hm. cbn. rewrite Hc. cbn. rewrite Hd. cbn.
    rewrite He. cbn. rewrite Hf. cbn. by rewrite <-!app_assoc.
Qed.

Lemma registration_failure_reported_witness :
  let fail := [EvReadManifest; EvFind "acme/mycli" "1.2.3"; EvDownload (demo_url "win32");
               EvExtract "/tmp/runner/download" "/tmp/runner";
               EvCacheFile "/tmp/runner/extract/mycli.exe" "mycli.exe" "acme/mycli" "1.2.3";
               EvSetFailed "sourceFile is not a file"] in
  ("mycli" :: [] = "mycli" :: [] -> invokeWith prepare_release_args missing_binary_world empty_st =
                                     with_trace empty_st fail) /\
  ("mycli" = "mycli" -> run "prepare" missing_binary_world empty_st = with_trace empty_st fail).
Proof.
  exact (registration_failure_reported prepare_release_args "prepare" missing_binary_world empty_st
           demo_manifest "mycli" [] "/tmp/runner/download" "/tmp/runner/extract"
           "sourceFile is not a file" eq_refl eq_refl eq_refl eq_refl eq_refl eq_refl).
Defined.

(* ------------------------------------------------------------------ *)
(** ** Deriving org/repo: edge cases *)

Lemma path_until_query_app a b :
  query_free a = true -> path_until_query (a +:+ b) = a +:+ path_until_query b.
Proof.
  induction a as [|c a IH]; [done|]. rewrite str_app_cons. cbn.
  destruct (is_query_start c); cbn; [done|]. intros H. by rewrite IH.
Qed.

Lemma path_until_query_tail t :
  (t = "" \/ exists c q, t = String c q /\ is_query_start c = true) -> path_until_query t = "".
Proof. intros [-> | (c & q & -> & Hc)]; cbn; [done|]. by rewrite Hc. Qed.


Lemma scheme_rest_colon_free r : colon_free r = true -> scheme_rest r = None.
Proof.
  induction r as [|c r IH]; [done|]. cbn. intros H.
  apply andb_true_iff in H as [H1 H2]. apply negb_true_iff in H1. rewrite H1. auto.
Qed.

Lemma host_name_url_segment host : host_name host = true -> url_segment host = true.
Proof.
  induction host as [|c host IH]; [done|]. cbn. intros H.
  apply andb_true_iff in H as [H1 H2]. rewrite (IH H2), andb_true_r.
  revert H1. unfold host_char, is_query_start.
  destruct c as [[] [] [] [] [] [] [] []]; vm_compute; done.
Qed.

Lemma plain_path_query_free p : plain_path p = true -> query_free p = true.
Proof.
  induction p as [|c p IH]; [done|]. cbn. intros H.
  apply andb_true_iff in H as [H1 H2]. apply andb_true_iff in H1 as [_ H1].
  rewrite H1. cbn. auto.
Qed.

(** Exactly one leading [/] and exactly one trailing [.git] are removed,
    and a query string or fragment after the path is ignored: for
    [https://host/<p>.git] followed by nothing, [?...] or [#...], the
    identifier is [p] itself, even when [p] starts with [/] or ends in
    [.git]. *)
Theorem org_and_name_strips_once host p t :
  host_name host = true -> plain_path p = true ->
  (t = "" \/ exists c q, t = String c q /\ is_query_start c = true) ->
  github_org_and_name ("https://" +:+ host +:+ "/" +:+ p +:+ ".git" +:+ t) = p.
Proof.
  intros Hh Hp Ht. apply host_name_url_segment in Hh. apply plain_path_query_free in Hp.
  unfold github_org_and_name, url_pathname.
  rewrite scheme_rest_https, str_slash, from_first_slash_host by done.
  change (path_until_query (String "/" (p +:+ ".git" +:+ t)))
    with (String "/" (path_until_query (p +:+ ".git" +:+ t))).
  rewrite path_until_query_app, (path_until_query_app ".git"), path_until_query_tail,
    str_app_nil by done.
  rewrite strip_leading_slash_slash. apply strip_git_suffix_git.
Qed.

Lemma org_and_name_strips_once_witness :
  github_org_and_name ("https://" +:+ "github.com" +:+ "/" +:+ "/acme/mycli.git" +:+ ".git"
                       +:+ "?ref=main") = "/acme/mycli.git".
Proof.
  apply org_and_name_strips_once; try reflexivity.
  right. exists "?"%char, "ref=main". split; reflexivity.
Defined.



Lemma bare_chars_free r : bare_chars r = true -> colon_free r = true /\ query_free r = true.
Proof.
  induction r as [|c r IH]; [done|]. cbn.
  rewrite !andb_true_iff. intros [[[[_ H1] H2] _] H3].
  destruct (IH H3) as [-> ->]. by rewrite H1, H2.
Qed.

Lemma bare_path_free r : bare_path r = true -> colon_free r = true /\ query_free r = true.
Proof. destruct r; [done|]. apply bare_chars_free. Qed.

(** A non-empty repository given without a scheme (e.g.
    [acme/mycli.git]) is taken as a path: one leading [/] and a trailing
    [.git] are removed. *)
Theorem org_and_name_schemeless r :
  bare_path r = true ->
  github_org_and_name r = strip_git_suffix (strip_leading_slash r).
Proof.
  intros Hb. destruct (bare_path_free r Hb) as [Hc Hq]. unfold github_org_and_name, url_pathname.
  by rewrite scheme_rest_colon_free, path_until_query_free.
Qed.

Lemma org_and_name_schemeless_witness :
  github_org_and_name "acme/mycli.git" = strip_git_suffix (strip_leading_slash "acme/mycli.git").
Proof. apply org_and_name_schemeless; reflexivity. Defined.
